(** * The feeder gateway of starknet-devnet

    A shallow embedding of [starknet_devnet/blueprints/feeder_gateway.py]:
    the Flask view functions of the [feeder_gateway] blueprint, written in a
    small state-and-exception monad, and the properties of the request
    resolution layer proved about them.

    Layout: Python and werkzeug data first, then the collaborators the
    module imports (as a type class), the handler monad, the view functions
    in source order, a concrete engine used to run examples, and finally
    the theorems. *)

From Stdlib Require Import ZArith String Ascii List Bool Lia.
Import ListNotations.
Local Open Scope string_scope.
Local Open Scope Z_scope.

(** ** Python values *)

(** The exception classes the module names in an [except] clause, and
    [Exception] for every other class. *)
Inductive exn_class : Set :=
| TypeError
| ValueError
| ValidationError
| StarkException
| StarknetDevnetException
| Exception.

Definition exn_class_eqb (a b : exn_class) : bool :=
  match a, b with
  | TypeError, TypeError
  | ValueError, ValueError
  | ValidationError, ValidationError
  | StarkException, StarkException
  | StarknetDevnetException, StarknetDevnetException
  | Exception, Exception => true
  | _, _ => false
  end.

(** A raised exception object.  [exn_mro] lists the classes it is an
    instance of (its own class and the bases), which is what an [except]
    clause tests; [exn_message] is the [.message] attribute read by the
    handlers and [exn_str] is [str(err)], used by the f-string of
    [validate_call]. *)
Record pyexn : Set := mk_exn {
  exn_mro : list exn_class;
  exn_message : string;
  exn_str : string
}.

Definition isinstance (e : pyexn) (classes : list exn_class) : bool :=
  existsb (fun c => existsb (exn_class_eqb c) (exn_mro e)) classes.

(** What the engine hands back and [jsonify] encodes. *)
#[local] Set Warnings "-register-all".
Inductive json : Set :=
| JNull
| JBool (b : bool)
| JInt (n : Z)
| JString (s : string)
| JArray (items : list json)
| JObject (members : list (string * json)).

(** ** werkzeug and Flask data *)

(** The first argument of [Response(...)]: a text, the JSON document built
    by [jsonify], or some other Python object passed as it is. *)
Inductive body_t : Set :=
| Text (s : string)
| Json (j : json)
| Object (e : pyexn).

Record HttpResponse : Set := Response {
  response : body_t;
  status : Z
}.

(** [jsonify(x)]: a 200 response whose body is the encoding of [x]. *)
Definition jsonify (j : json) : HttpResponse := Response (Json j) 200.

(** A view function that returns a bare string answers 200 with it; one
    that returns [(body, status)] answers with that status. *)
Definition make_response (rv : string) : HttpResponse := Response (Text rv) 200.
Definition make_response_with (rv : string) (code : Z) : HttpResponse :=
  Response (Text rv) code.

(** [request.args]: the query string as an ordered multi-map. *)
Definition MultiDict : Set := list (string * string).

(** [MultiDict.get(key)]: the first value stored under [key], else [None]. *)
Fixpoint MultiDict_get (d : MultiDict) (key : string) : option string :=
  match d with
  | [] => None
  | (k, v) :: rest => if String.eqb k key then Some v else MultiDict_get rest key
  end.

(** [MultiDict.get(key, type=f)]: the converted first value; a conversion
    that raises [ValueError] (here: [f] answers [None]) gives the default. *)
Definition MultiDict_get_type {T : Type} (d : MultiDict) (key : string)
    (type : string -> option T) : option T :=
  match MultiDict_get d key with
  | None => None
  | Some rv => type rv
  end.

(** The methods the rules of the blueprint are registered for. *)
Inductive http_method : Set := GET | POST.

Record Request : Set := mk_request {
  args : MultiDict;
  data : string
}.

(** How a view function ends: it returns, it leaves through [abort] with
    the response to send, or an exception escapes it. *)
Inductive outcome (A : Type) : Type :=
| Returned (a : A)
| Aborted (r : HttpResponse)
| Raised (e : pyexn).
Arguments Returned {A} a.
Arguments Aborted {A} r.
Arguments Raised {A} e.

(** The response this layer produced, if it produced one. *)
Definition produced (o : outcome HttpResponse) : option HttpResponse :=
  match o with
  | Returned r | Aborted r => Some r
  | Raised _ => None
  end.

(** ** The state engine's interface *)

Module Engine.

(** The methods of [state.starknet_wrapper] the module calls, with the
    arguments the handlers pass ([None] where a query parameter is missing
    or was refused by its converter). *)
Inductive op (InvokeFunction : Type) : Type :=
| call (call_specifications : InvokeFunction)
| get_block_by_hash (block_hash : string)
| get_block_by_number (block_number : option Z)
| get_code (contract_address : option Z)
| get_full_contract (contract_address : option Z)
| get_storage_at (contract_address : option Z) (key : option Z)
| get_transaction_status (transaction_hash : option string)
| get_transaction (transaction_hash : option string)
| get_transaction_receipt (transaction_hash : option string)
| get_transaction_trace (transaction_hash : option string)
| get_state_update (block_hash : option string) (block_number : option Z)
| calculate_actual_fee (transaction : InvokeFunction).
Arguments call {InvokeFunction}.
Arguments get_block_by_hash {InvokeFunction}.
Arguments get_block_by_number {InvokeFunction}.
Arguments get_code {InvokeFunction}.
Arguments get_full_contract {InvokeFunction}.
Arguments get_storage_at {InvokeFunction}.
Arguments get_transaction_status {InvokeFunction}.
Arguments get_transaction {InvokeFunction}.
Arguments get_transaction_receipt {InvokeFunction}.
Arguments get_transaction_trace {InvokeFunction}.
Arguments get_state_update {InvokeFunction}.
Arguments calculate_actual_fee {InvokeFunction}.

(** The fee computation answers an integer, every other read a JSON
    document. *)
Definition result_type {InvokeFunction : Type} (o : op InvokeFunction) : Set :=
  match o with
  | calculate_actual_fee _ => Z
  | _ => json
  end.

End Engine.

(** Everything the module imports and does not define itself.

    - [InvokeFunction] and [InvokeFunction_loads] are starkware's call
      schema: [loads] answers the decoded call or raises.
    - [custom_int] (of [starknet_devnet.util]) answers [None] where the
      Python function raises [ValueError].
    - [validate_transaction] (of [.shared]) answers the transaction, aborts
      or raises; it does not touch the engine.
    - [starknet_wrapper] is the engine behind [state.starknet_wrapper]: one
      transition per method call, answering a result or raising. *)
Class Collaborators : Type := {
  InvokeFunction : Type;
  InvokeFunction_loads : string -> InvokeFunction + pyexn;
  custom_int : string -> option Z;
  validate_transaction : string -> outcome InvokeFunction;
  engine_state : Type;
  starknet_wrapper :
    forall o : Engine.op InvokeFunction,
      engine_state -> (Engine.result_type o + pyexn) * engine_state
}.

(** Modelled from the spec: [custom_int] of [starknet_devnet/util.py] is not
    under src/.  The spec's [parse_integer_param] accepts decimal or
    0x-prefixed hexadecimal and fails on any other lexical form, including
    the empty string. *)
Definition digit_value (base : Z) (c : ascii) : option Z :=
  let n := Z.of_N (N_of_ascii c) in
  if (48 <=? n) && (n <=? 57) then Some (n - 48)
  else if (base =? 16) && (97 <=? n) && (n <=? 102) then Some (n - 87)
  else if (base =? 16) && (65 <=? n) && (n <=? 70) then Some (n - 55)
  else None.

Fixpoint parse_digits (base acc : Z) (s : string) : option Z :=
  match s with
  | EmptyString => Some acc
  | String c rest =>
      match digit_value base c with
      | Some d => parse_digits base (acc * base + d) rest
      | None => None
      end
  end.

Definition parse_integer_param (raw : string) : option Z :=
  match raw with
  | EmptyString => None
  | String "0" (String "x" EmptyString) => None
  | String "0" (String "x" digits) => parse_digits 16 0 digits
  | _ => parse_digits 10 0 raw
  end.

(** ** The handler monad *)

Declare Scope handler_scope.
Delimit Scope handler_scope with handler.

Section Gateway.
Context `{Collaborators}.

(** What a request can observe and change: the engine behind
    [state.starknet_wrapper], the engine methods called so far (oldest
    first), and the lines written by [print]. *)
Record world : Type := mk_world {
  engine : engine_state;
  calls : list (Engine.op InvokeFunction);
  stdout : list string
}.

Definition handler (A : Type) : Type := world -> outcome A * world.

Definition ret {A} (a : A) : handler A := fun w => (Returned a, w).

Definition bind {A B} (c : handler A) (k : A -> handler B) : handler B :=
  fun w =>
    match c w with
    | (Returned a, w') => k a w'
    | (Aborted r, w') => (Aborted r, w')
    | (Raised e, w') => (Raised e, w')
    end.

(** [abort(response)] *)
Definition abort {A} (r : HttpResponse) : handler A := fun w => (Aborted r, w).

(** [raise e], also how an exception nobody catches travels. *)
Definition raise {A} (e : pyexn) : handler A := fun w => (Raised e, w).

(** A pure collaborator's answer, continued in the monad. *)
Definition lift {A} (o : outcome A) : handler A := fun w => (o, w).

Definition print (line : string) : handler unit :=
  fun w => (Returned tt, mk_world (engine w) (calls w) (stdout w ++ [line])).

(** [state.starknet_wrapper.<method>(...)]; an [await] on it is the same
    call, since a handler runs no other code of this module meanwhile. *)
Definition invoke (o : Engine.op InvokeFunction) : handler (Engine.result_type o) :=
  fun w =>
    let (r, s') := starknet_wrapper o (engine w) in
    let w' := mk_world s' (calls w ++ [o]) (stdout w) in
    match r with
    | inl v => (Returned v, w')
    | inr e => (Raised e, w')
    end.

(** [try: body  except classes as err: except_ err].  [abort] leaves with
    werkzeug's own exception, which none of the clauses names. *)
Definition try_except {A} (body : handler A) (classes : list exn_class)
    (except_ : pyexn -> handler A) : handler A :=
  fun w =>
    match body w with
    | (Raised err, w') =>
        if isinstance err classes then except_ err w' else (Raised err, w')
    | r => r
    end.

Notation "x <- c ;; k" := (bind c (fun x => k))
  (at level 100, c at next level, right associativity) : handler_scope.
Notation "c ;; k" := (bind c (fun _ => k))
  (at level 100, k at level 200, right associativity) : handler_scope.
Local Open Scope handler_scope.

(** ** The view functions, in source order *)

(** Ensure [data] is a valid Starknet function call. *)
Definition validate_call (data : string) : handler InvokeFunction :=
  try_except
    (match InvokeFunction_loads data with
     | inl call_specifications => ret call_specifications
     | inr err => raise err
     end)
    [TypeError; ValidationError]
    (fun err =>
       abort (Response (Text ("Invalid Starknet function call: " ++ exn_str err)) 400)).

Definition _check_block_hash (request_args : MultiDict) : handler unit :=
  let block_hash := MultiDict_get_type request_args "blockHash" custom_int in
  match block_hash with
  | Some _ =>
      print "Specifying a block by its hash is not supported. All interaction is done with the latest block."
  | None => ret tt
  end.

Definition _check_block_arguments (block_hash : option string)
    (block_number : option Z) : handler unit :=
  match block_hash, block_number with
  | Some _, Some _ =>
      let message :=
        "Ambiguous criteria: only one of (block number, block hash) can be provided." in
      abort (Response (Text message) 500)
  | _, _ => ret tt
  end.

(** Health check endpoint. *)
Definition is_alive (request : Request) : handler HttpResponse :=
  ret (make_response "Alive!!!").

Definition get_contract_addresses (request : Request) : handler HttpResponse :=
  ret (make_response_with "Not implemented" 501).

Definition call_contract (request : Request) : handler HttpResponse :=
  call_specifications <- validate_call (data request) ;;
  result_dict <-
    try_except (invoke (Engine.call call_specifications)) [StarkException]
      (fun err => abort (Response (Text (exn_message err)) 500)) ;;
  ret (jsonify result_dict).

Definition get_block (request : Request) : handler HttpResponse :=
  let block_hash := MultiDict_get (args request) "blockHash" in
  let block_number := MultiDict_get_type (args request) "blockNumber" custom_int in
  _check_block_arguments block_hash block_number ;;
  result_dict <-
    try_except
      (match block_hash with
       | Some h => invoke (Engine.get_block_by_hash h)
       | None => invoke (Engine.get_block_by_number block_number)
       end)
      [StarkException]
      (fun err => abort (Response (Text (exn_message err)) 500)) ;;
  ret (jsonify result_dict).

Definition get_code (request : Request) : handler HttpResponse :=
  _check_block_hash (args request) ;;
  let contract_address := MultiDict_get_type (args request) "contractAddress" custom_int in
  result_dict <- invoke (Engine.get_code contract_address) ;;
  ret (jsonify result_dict).

Definition get_full_contract (request : Request) : handler HttpResponse :=
  _check_block_hash (args request) ;;
  let contract_address := MultiDict_get_type (args request) "contractAddress" custom_int in
  result_dict <-
    try_except (invoke (Engine.get_full_contract contract_address))
      [StarknetDevnetException]
      (fun error => abort (Response (Text (exn_message error)) 500)) ;;
  ret (jsonify result_dict).

Definition get_storage_at (request : Request) : handler HttpResponse :=
  _check_block_hash (args request) ;;
  let contract_address := MultiDict_get_type (args request) "contractAddress" custom_int in
  let key := MultiDict_get_type (args request) "key" custom_int in
  storage <- invoke (Engine.get_storage_at contract_address key) ;;
  ret (jsonify storage).

Definition get_transaction_status (request : Request) : handler HttpResponse :=
  let transaction_hash := MultiDict_get (args request) "transactionHash" in
  ret_ <- invoke (Engine.get_transaction_status transaction_hash) ;;
  ret (jsonify ret_).

Definition get_transaction (request : Request) : handler HttpResponse :=
  let transaction_hash := MultiDict_get (args request) "transactionHash" in
  ret_ <- invoke (Engine.get_transaction transaction_hash) ;;
  ret (jsonify ret_).

Definition get_transaction_receipt (request : Request) : handler HttpResponse :=
  let transaction_hash := MultiDict_get (args request) "transactionHash" in
  ret_ <- invoke (Engine.get_transaction_receipt transaction_hash) ;;
  ret (jsonify ret_).

Definition get_transaction_trace (request : Request) : handler HttpResponse :=
  let transaction_hash := MultiDict_get (args request) "transactionHash" in
  transaction_trace <-
    try_except (invoke (Engine.get_transaction_trace transaction_hash))
      [StarkException]
      (fun err => abort (Response (Object err) 500)) ;;
  ret (jsonify transaction_trace).

Definition get_state_update (request : Request) : handler HttpResponse :=
  let block_hash := MultiDict_get (args request) "blockHash" in
  let block_number := MultiDict_get_type (args request) "blockNumber" custom_int in
  state_update <-
    try_except (invoke (Engine.get_state_update block_hash block_number))
      [StarkException]
      (fun err => abort (Response (Text (exn_message err)) 500)) ;;
  ret (jsonify state_update).

Definition estimate_fee (request : Request) : handler HttpResponse :=
  transaction <- lift (validate_transaction (data request)) ;;
  actual_fee <-
    try_except (invoke (Engine.calculate_actual_fee transaction)) [StarkException]
      (fun stark_exception => abort (Response (Text (exn_message stark_exception)) 500)) ;;
  ret (jsonify (JObject [("amount", JInt actual_fee); ("unit", JString "wei")])).

(** The blueprint: every rule registered with [@feeder_gateway.route],
    under the prefix [/feeder_gateway]. *)
Definition url_prefix : string := "/feeder_gateway".

Definition feeder_gateway :
    list (http_method * string * (Request -> handler HttpResponse)) :=
  [ (GET, "/is_alive", is_alive);
    (GET, "/get_contract_addresses", get_contract_addresses);
    (POST, "/call_contract", call_contract);
    (GET, "/get_block", get_block);
    (GET, "/get_code", get_code);
    (GET, "/get_full_contract", get_full_contract);
    (GET, "/get_storage_at", get_storage_at);
    (GET, "/get_transaction_status", get_transaction_status);
    (GET, "/get_transaction", get_transaction);
    (GET, "/get_transaction_receipt", get_transaction_receipt);
    (GET, "/get_transaction_trace", get_transaction_trace);
    (GET, "/get_state_update", get_state_update);
    (POST, "/estimate_fee", estimate_fee) ].

End Gateway.

(** ** Two concrete sets of collaborators, to run the handlers on *)

Definition stark_exception (message : string) : pyexn :=
  mk_exn [StarkException; Exception] message ("StarkException: " ++ message).

Definition validation_error (message : string) : pyexn :=
  mk_exn [ValidationError; ValueError; Exception] message message.

(** A call schema of one field: the body is the contract address. *)
Definition demo_loads (data : string) : Z + pyexn :=
  match parse_integer_param data with
  | Some contract_address => inl contract_address
  | None => inr (validation_error "contract_address: Missing data for required field.")
  end.

Definition demo_validate_transaction (data : string) : outcome Z :=
  match demo_loads data with
  | inl transaction => Returned transaction
  | inr err => Aborted (Response (Text ("Invalid tx: " ++ exn_str err)) 400)
  end.

(** An engine whose state is the number of blocks; it knows blocks
    [0 .. state - 1] and raises for any other number. *)
Definition demo_engine (o : Engine.op Z) (blocks : Z)
    : (Engine.result_type o + pyexn) * Z :=
  match o return (Engine.result_type o + pyexn) * Z with
  | Engine.call contract_address =>
      (inl (JObject [("result", JArray [JString "0x0"])]), blocks)
  | Engine.get_block_by_hash block_hash =>
      (inl (JObject [("block_hash", JString block_hash)]), blocks)
  | Engine.get_block_by_number None =>
      (inl (JObject [("block_number", JInt (blocks - 1))]), blocks)
  | Engine.get_block_by_number (Some n) =>
      if (0 <=? n) && (n <? blocks)
      then (inl (JObject [("block_number", JInt n)]), blocks)
      else (inr (stark_exception "Block number out of range."), blocks)
  | Engine.get_code _ =>
      (inl (JObject [("abi", JObject []); ("bytecode", JArray [])]), blocks)
  | Engine.get_full_contract _ => (inl (JObject []), blocks)
  | Engine.get_storage_at _ _ => (inl (JString "0x0"), blocks)
  | Engine.get_transaction_status _ =>
      (inl (JObject [("tx_status", JString "NOT_RECEIVED")]), blocks)
  | Engine.get_transaction _ =>
      (inl (JObject [("status", JString "NOT_RECEIVED")]), blocks)
  | Engine.get_transaction_receipt _ =>
      (inl (JObject [("status", JString "NOT_RECEIVED")]), blocks)
  | Engine.get_transaction_trace _ =>
      (inr (stark_exception "Transaction corresponding to hash is not found."), blocks)
  | Engine.get_state_update block_hash block_number =>
      (inl (JObject [("block_hash",
                      match block_hash with Some h => JString h | None => JNull end);
                     ("block_number",
                      match block_number with Some n => JInt n | None => JNull end)]),
       blocks)
  | Engine.calculate_actual_fee _ => (inl 0, blocks)
  end.

Definition demo : Collaborators := {|
  InvokeFunction := Z;
  InvokeFunction_loads := demo_loads;
  custom_int := parse_integer_param;
  validate_transaction := demo_validate_transaction;
  engine_state := Z;
  starknet_wrapper := demo_engine
|}.

(** An engine on which every method raises the same [StarkException]. *)
Definition failing_engine (o : Engine.op Z) (s : unit)
    : (Engine.result_type o + pyexn) * unit :=
  (inr (stark_exception "boom"), s).

Definition failing : Collaborators := {|
  InvokeFunction := Z;
  InvokeFunction_loads := demo_loads;
  custom_int := parse_integer_param;
  validate_transaction := demo_validate_transaction;
  engine_state := unit;
  starknet_wrapper := failing_engine
|}.

(** Collaborators for the paths the two above do not reach: a schema whose
    [loads] fails to decode an empty body before any validation, and an
    engine that knows no contract. *)
Definition json_decode_error : pyexn :=
  mk_exn [ValueError; Exception] "Expecting value"
    "Expecting value: line 1 column 1 (char 0)".

Definition devnet_exception (message : string) : pyexn :=
  mk_exn [StarknetDevnetException; StarkException; Exception] message message.

Definition strict_loads (data : string) : Z + pyexn :=
  match data with
  | EmptyString => inr json_decode_error
  | _ => demo_loads data
  end.

Definition uninitialized_engine (o : Engine.op Z) (s : unit)
    : (Engine.result_type o + pyexn) * unit :=
  match o return (Engine.result_type o + pyexn) * unit with
  | Engine.get_full_contract _ =>
      (inr (devnet_exception "Contract with the given address is not deployed."), s)
  | _ => (inr (stark_exception "boom"), s)
  end.

Definition strict : Collaborators := {|
  InvokeFunction := Z;
  InvokeFunction_loads := strict_loads;
  custom_int := parse_integer_param;
  validate_transaction := demo_validate_transaction;
  engine_state := unit;
  starknet_wrapper := uninitialized_engine
|}.

(** A call schema that validates the range of the address: an address of
    2^251 or more is refused with a [StarkException], as starkware's field
    validation does. *)
Definition ranged_loads (data : string) : Z + pyexn :=
  match parse_integer_param data with
  | Some contract_address =>
      if contract_address <? 2 ^ 251
      then inl contract_address
      else inr (stark_exception "Contract address is out of range.")
  | None => inr (validation_error "contract_address: Missing data for required field.")
  end.

Definition ranged : Collaborators := {|
  InvokeFunction := Z;
  InvokeFunction_loads := ranged_loads;
  custom_int := parse_integer_param;
  validate_transaction := demo_validate_transaction;
  engine_state := Z;
  starknet_wrapper := demo_engine
|}.

(** A request with the given query string and an empty body. *)
Definition GET_request (query : MultiDict) : Request := mk_request query "".
Definition POST_request (body : string) : Request := mk_request [] body.

Definition fresh (C : Collaborators) (s : @engine_state C) : @world C :=
  mk_world s [] [].

(** ** Properties *)

Section Properties.
Context `{Collaborators}.

(** *** What one guarded engine read does *)

(** The world after one engine call: the engine moved, the call recorded,
    nothing printed. *)
Definition after_call (o : Engine.op InvokeFunction) (w : world) : world :=
  mk_world (snd (starknet_wrapper o (engine w))) (calls w ++ [o]) (stdout w).

(** The world after [print] wrote [lines]. *)
Definition noted (lines : list string) (w : world) : world :=
  mk_world (engine w) (calls w) (stdout w ++ lines).

(** The engine raised [e] when [o] was called in [w]. *)
Definition engine_raises (o : Engine.op InvokeFunction) (w : world) (e : pyexn) : Prop :=
  fst (starknet_wrapper o (engine w)) = inr e.

(** The body written by [abort(Response(err.message, 500))]. *)
Definition message_500 (err : pyexn) : HttpResponse :=
  Response (Text (exn_message err)) 500.

(** The way a view function ends after its engine call answered [r]:
    the encoded result, or the [except] clause for [classes], or the
    exception itself. *)
Definition answer {X : Type} (classes : list exn_class) (mk : pyexn -> HttpResponse)
    (enc : X -> HttpResponse) (r : X + pyexn) : outcome HttpResponse :=
  match r with
  | inl v => Returned (enc v)
  | inr e => if isinstance e classes then Aborted (mk e) else Raised e
  end.

Definition served (o : Engine.op InvokeFunction) (classes : list exn_class)
    (mk : pyexn -> HttpResponse) (enc : Engine.result_type o -> HttpResponse)
    (w : world) : outcome HttpResponse * world :=
  (answer classes mk enc (fst (starknet_wrapper o (engine w))), after_call o w).

(** The response of the ambiguity check. *)
Definition ambiguous_criteria : HttpResponse :=
  Response
    (Text "Ambiguous criteria: only one of (block number, block hash) can be provided.")
    500.

(** The body of a successful fee estimate. *)
Definition fee_object (amount : Z) : json :=
  JObject [("amount", JInt amount); ("unit", JString "wei")].

(** Two requests that differ at most in their blockHash parameters. *)
Definition agree_except_blockHash (r1 r2 : Request) : Prop :=
  data r1 = data r2 /\
  forall key, key <> "blockHash" ->
    MultiDict_get (args r1) key = MultiDict_get (args r2) key.

(** Two worlds with the same engine and the same record of calls. *)
Definition same_engine (w1 w2 : world) : Prop :=
  engine w1 = engine w2 /\ calls w1 = calls w2.

(** A view function without an [except] clause: it makes one engine call,
    and an exception raised by that call leaves the view function as it
    is. *)
Definition propagates (view : Request -> handler HttpResponse) : Prop :=
  forall request w,
    (exists o, calls (snd (view request w)) = (calls w ++ [o])%list) /\
    forall o e,
      calls (snd (view request w)) = (calls w ++ [o])%list ->
      engine_raises o w e ->
      fst (view request w) = Raised e.

(** A view function with an [except] clause for [classes]: an exception of
    these classes raised by its engine call becomes a response of status
    500, any other exception leaves the view function as it is. *)
Definition re_encodes (classes : list exn_class)
    (view : Request -> handler HttpResponse) : Prop :=
  forall request w o e,
    calls (snd (view request w)) = (calls w ++ [o])%list ->
    engine_raises o w e ->
    if isinstance e classes
    then exists r, fst (view request w) = Aborted r /\ status r = 500
    else fst (view request w) = Raised e.

(** The response written for a caught exception carries its message. *)
Definition passes_message (classes : list exn_class)
    (view : Request -> handler HttpResponse) : Prop :=
  forall request w o e,
    calls (snd (view request w)) = (calls w ++ [o])%list ->
    engine_raises o w e ->
    isinstance e classes = true ->
    fst (view request w) = Aborted (message_500 e).

(** The status codes the blueprint uses; 501 is the marker of
    /get_contract_addresses alone. *)
Definition status_allowed (path : string) (code : Z) : Prop :=
  code = 200 \/ code = 400 \/ code = 500 \/
  (code = 501 /\ path = "/get_contract_addresses").

(** The line [_check_block_hash] prints. *)
Definition block_hash_notice : string :=
  "Specifying a block by its hash is not supported. All interaction is done with the latest block.".

(** What [_check_block_hash] prints for a query string. *)
Definition notice_lines (request_args : MultiDict) : list string :=
  match MultiDict_get_type request_args "blockHash" custom_int with
  | Some _ => [block_hash_notice]
  | None => []
  end.

(** The rules whose view function starts with [_check_block_hash]. *)
Definition checks_block_hash (path : string) : bool :=
  existsb (String.eqb path) ["/get_code"; "/get_full_contract"; "/get_storage_at"].

(** What the rule at [path] prints for a request. *)
Definition printed (path : string) (request : Request) : list string :=
  if checks_block_hash path then notice_lines (args request) else [].

(** The world [w'] a view function leaves behind [w]: it printed [lines]
    and then made no engine call, or exactly one. *)
Definition one_call_at_most (lines : list string) (w w' : world) : Prop :=
  w' = noted lines w \/ exists o, w' = after_call o (noted lines w).

(** How a view function encodes what its engine call answered: the fee is
    wrapped in the fee object, every other result is encoded as it is. *)
Definition encode (o : Engine.op InvokeFunction) : Engine.result_type o -> HttpResponse :=
  match o return Engine.result_type o -> HttpResponse with
  | Engine.calculate_actual_fee _ => fun actual_fee => jsonify (fee_object actual_fee)
  | _ => jsonify
  end.

(** A view function answers 200 with the encoded result of its engine
    call, whenever that call answers. *)
Definition returns_result (view : Request -> handler HttpResponse) : Prop :=
  forall request w o v,
    calls (snd (view request w)) = (calls w ++ [o])%list ->
    fst (starknet_wrapper o (engine w)) = inl v ->
    fst (view request w) = Returned (encode o v).

(** Two requests with the same body whose query strings answer every
    [get] alike. *)
Definition same_query (r1 r2 : Request) : Prop :=
  data r1 = data r2 /\
  forall key, MultiDict_get (args r1) key = MultiDict_get (args r2) key.

(** A view function makes exactly one engine call, [method] on the
    transactionHash parameter as the query string holds it: the text of its
    first value, or [None] when the parameter is absent. *)
Definition passes_text (method : option string -> Engine.op InvokeFunction)
    (view : Request -> handler HttpResponse) : Prop :=
  forall request w,
    calls (snd (view request w)) =
      (calls w ++ [method (MultiDict_get (args request) "transactionHash")])%list.

(** *** Running the monad *)

Lemma invoke_eq (o : Engine.op InvokeFunction) (w : world) :
  invoke o w =
  (match fst (starknet_wrapper o (engine w)) with
   | inl v => Returned v
   | inr e => Raised e
   end, after_call o w).
Proof.
  unfold invoke, after_call.
  destruct (starknet_wrapper o (engine w)) as [[v | e] s']; reflexivity.
Qed.

(** Runs a handler up to the answer of its engine call, then splits on the
    answer and on the [except] clause. *)
Ltac run_read :=
  unfold served, answer, bind, ret, lift, abort, raise, try_except;
  repeat rewrite invoke_eq;
  repeat match goal with
    | |- context [isinstance ?e []] => change (isinstance e []) with false
    | |- context [match fst (starknet_wrapper ?o ?s) with _ => _ end] =>
        destruct (fst (starknet_wrapper o s)) as [? | ?]
    | |- context [if isinstance ?e ?c then _ else _] =>
        destruct (isinstance e c)
    end;
  try reflexivity.

Lemma noted_nil (w : world) : noted [] w = w.
Proof. unfold noted. rewrite app_nil_r. destruct w; reflexivity. Qed.

Lemma check_block_hash_eq (request_args : MultiDict) (w : world) :
  exists lines, _check_block_hash request_args w = (Returned tt, noted lines w).
Proof.
  unfold _check_block_hash.
  destruct (MultiDict_get_type request_args "blockHash" custom_int).
  - eexists [_]. reflexivity.
  - exists []. rewrite noted_nil. reflexivity.
Qed.

Lemma exn_class_eqb_eq (a b : exn_class) : exn_class_eqb a b = true <-> a = b.
Proof. destruct a, b; simpl; split; (reflexivity || discriminate). Qed.

(** An [except] clause catches an exception exactly when one of the classes
    it names is among the classes of the exception. *)
Lemma isinstance_spec (e : pyexn) (classes : list exn_class) :
  isinstance e classes = true <-> exists c, In c classes /\ In c (exn_mro e).
Proof.
  unfold isinstance. rewrite existsb_exists. split.
  - intros [c [Hc Hmro]]. apply existsb_exists in Hmro.
    destruct Hmro as [c' [Hc' Heq]]. apply exn_class_eqb_eq in Heq. subst c'.
    now exists c.
  - intros [c [Hc Hmro]]. exists c. split; [exact Hc |].
    apply existsb_exists. exists c. split; [exact Hmro |].
    now apply exn_class_eqb_eq.
Qed.

(** *** Each view function as one guarded read *)

Lemma call_contract_eq (request : Request) (w : world) :
  call_contract request w =
  match InvokeFunction_loads (data request) with
  | inl call_specifications =>
      served (Engine.call call_specifications) [StarkException] message_500 jsonify w
  | inr err =>
      if isinstance err [TypeError; ValidationError]
      then (Aborted
              (Response (Text ("Invalid Starknet function call: " ++ exn_str err)) 400),
            w)
      else (Raised err, w)
  end.
Proof.
  unfold call_contract, validate_call.
  destruct (InvokeFunction_loads (data request)) as [spec | err].
  - run_read.
  - unfold bind, try_except, raise, abort.
    destruct (isinstance err _); reflexivity.
Qed.

Lemma get_block_eq (request : Request) (w : world) :
  get_block request w =
  match MultiDict_get (args request) "blockHash",
        MultiDict_get_type (args request) "blockNumber" custom_int with
  | Some _, Some _ => (Aborted ambiguous_criteria, w)
  | Some block_hash, None =>
      served (Engine.get_block_by_hash block_hash) [StarkException] message_500 jsonify w
  | None, block_number =>
      served (Engine.get_block_by_number block_number) [StarkException] message_500
        jsonify w
  end.
Proof.
  unfold get_block, _check_block_arguments.
  destruct (MultiDict_get (args request) "blockHash") as [h |];
    destruct (MultiDict_get_type (args request) "blockNumber" custom_int) as [n |];
    run_read.
Qed.

Lemma get_code_eq (request : Request) (w : world) :
  exists lines,
    get_code request w =
    served
      (Engine.get_code (MultiDict_get_type (args request) "contractAddress" custom_int))
      [] message_500 jsonify (noted lines w).
Proof.
  destruct (check_block_hash_eq (args request) w) as [lines Hc].
  exists lines. unfold get_code, bind at 1. rewrite Hc. run_read.
Qed.

Lemma get_full_contract_eq (request : Request) (w : world) :
  exists lines,
    get_full_contract request w =
    served
      (Engine.get_full_contract
         (MultiDict_get_type (args request) "contractAddress" custom_int))
      [StarknetDevnetException] message_500 jsonify (noted lines w).
Proof.
  destruct (check_block_hash_eq (args request) w) as [lines Hc].
  exists lines. unfold get_full_contract, bind at 1. rewrite Hc. run_read.
Qed.

Lemma get_storage_at_eq (request : Request) (w : world) :
  exists lines,
    get_storage_at request w =
    served
      (Engine.get_storage_at
         (MultiDict_get_type (args request) "contractAddress" custom_int)
         (MultiDict_get_type (args request) "key" custom_int))
      [] message_500 jsonify (noted lines w).
Proof.
  destruct (check_block_hash_eq (args request) w) as [lines Hc].
  exists lines. unfold get_storage_at, bind at 1. rewrite Hc. run_read.
Qed.

Lemma get_transaction_status_eq (request : Request) (w : world) :
  get_transaction_status request w =
  served (Engine.get_transaction_status (MultiDict_get (args request) "transactionHash"))
    [] message_500 jsonify w.
Proof. unfold get_transaction_status. run_read. Qed.

Lemma get_transaction_eq (request : Request) (w : world) :
  get_transaction request w =
  served (Engine.get_transaction (MultiDict_get (args request) "transactionHash"))
    [] message_500 jsonify w.
Proof. unfold get_transaction. run_read. Qed.

Lemma get_transaction_receipt_eq (request : Request) (w : world) :
  get_transaction_receipt request w =
  served (Engine.get_transaction_receipt (MultiDict_get (args request) "transactionHash"))
    [] message_500 jsonify w.
Proof. unfold get_transaction_receipt. run_read. Qed.

Lemma get_transaction_trace_eq (request : Request) (w : world) :
  get_transaction_trace request w =
  served (Engine.get_transaction_trace (MultiDict_get (args request) "transactionHash"))
    [StarkException] (fun err => Response (Object err) 500) jsonify w.
Proof. unfold get_transaction_trace. run_read. Qed.

Lemma get_state_update_eq (request : Request) (w : world) :
  get_state_update request w =
  served
    (Engine.get_state_update
       (MultiDict_get (args request) "blockHash")
       (MultiDict_get_type (args request) "blockNumber" custom_int))
    [StarkException] message_500 jsonify w.
Proof. unfold get_state_update. run_read. Qed.

Lemma estimate_fee_eq (request : Request) (w : world) :
  estimate_fee request w =
  match validate_transaction (data request) with
  | Returned transaction =>
      served (Engine.calculate_actual_fee transaction) [StarkException] message_500
        (fun actual_fee => jsonify (fee_object actual_fee)) w
  | Aborted r => (Aborted r, w)
  | Raised e => (Raised e, w)
  end.
Proof.
  unfold estimate_fee, lift, bind at 1.
  destruct (validate_transaction (data request)); try reflexivity.
  run_read.
Qed.

(** *** What follows for a read that raised *)

Lemma served_raise (o o' : Engine.op InvokeFunction) (classes : list exn_class)
    (mk : pyexn -> HttpResponse) (enc : Engine.result_type o -> HttpResponse)
    (w w0 : world) (e : pyexn) :
  same_engine w w0 ->
  calls (snd (served o classes mk enc w)) = (calls w0 ++ [o'])%list ->
  engine_raises o' w0 e ->
  fst (served o classes mk enc w) =
    if isinstance e classes then Aborted (mk e) else Raised e.
Proof.
  intros [He Hc] Hcalls Hraise. unfold served in *. simpl in *.
  rewrite Hc in Hcalls. apply app_inv_head in Hcalls.
  injection Hcalls as <-.
  unfold engine_raises in Hraise. rewrite He, Hraise. reflexivity.
Qed.

Lemma same_engine_noted (lines : list string) (w : world) :
  same_engine (noted lines w) w.
Proof. split; reflexivity. Qed.

Lemma same_engine_refl (w : world) : same_engine w w.
Proof. split; reflexivity. Qed.

Lemma no_call_made (w : world) (o : Engine.op InvokeFunction) :
  calls w <> (calls w ++ [o])%list.
Proof.
  intros Heq. apply (f_equal (@length _)) in Heq.
  rewrite length_app in Heq. simpl in Heq. lia.
Qed.

Create HintDb gateway.
#[local] Hint Resolve same_engine_noted same_engine_refl : gateway.

(** Closes a goal about the outcome of a read that raised. *)
Ltac raised_read :=
  erewrite served_raise; [reflexivity | eauto with gateway ..].

Lemma get_code_propagates : propagates get_code.
Proof.
  intros request w.
  destruct (get_code_eq request w) as [lines Heq]. rewrite Heq.
  split; [eexists; reflexivity |].
  intros o e Hcalls Hraise. raised_read.
Qed.

Lemma get_storage_at_propagates : propagates get_storage_at.
Proof.
  intros request w.
  destruct (get_storage_at_eq request w) as [lines Heq]. rewrite Heq.
  split; [eexists; reflexivity |].
  intros o e Hcalls Hraise. raised_read.
Qed.

Lemma get_transaction_status_propagates : propagates get_transaction_status.
Proof.
  intros request w. rewrite get_transaction_status_eq.
  split; [eexists; reflexivity |].
  intros o e Hcalls Hraise. raised_read.
Qed.

Lemma get_transaction_propagates : propagates get_transaction.
Proof.
  intros request w. rewrite get_transaction_eq.
  split; [eexists; reflexivity |].
  intros o e Hcalls Hraise. raised_read.
Qed.

Lemma get_transaction_receipt_propagates : propagates get_transaction_receipt.
Proof.
  intros request w. rewrite get_transaction_receipt_eq.
  split; [eexists; reflexivity |].
  intros o e Hcalls Hraise. raised_read.
Qed.

(** From the outcome of a guarded read to the two properties of an
    [except] clause. *)
Lemma caught_re_encoded (classes : list exn_class) (mk : pyexn -> HttpResponse)
    (e : pyexn) (o : outcome HttpResponse) :
  (forall err, status (mk err) = 500) ->
  o = (if isinstance e classes then Aborted (mk e) else Raised e) ->
  if isinstance e classes
  then exists r, o = Aborted r /\ status r = 500
  else o = Raised e.
Proof.
  intros Hmk ->. destruct (isinstance e classes); [| reflexivity].
  exists (mk e). split; [reflexivity | apply Hmk].
Qed.

Lemma call_contract_caught (request : Request) (w : world)
    (o : Engine.op InvokeFunction) (e : pyexn) :
  calls (snd (call_contract request w)) = (calls w ++ [o])%list ->
  engine_raises o w e ->
  fst (call_contract request w) =
    if isinstance e [StarkException] then Aborted (message_500 e) else Raised e.
Proof.
  rewrite call_contract_eq.
  destruct (InvokeFunction_loads (data request)) as [spec | err].
  - intros Hcalls Hraise. raised_read.
  - destruct (isinstance err _); simpl; intros Hcalls; now apply no_call_made in Hcalls.
Qed.

Lemma get_block_caught (request : Request) (w : world)
    (o : Engine.op InvokeFunction) (e : pyexn) :
  calls (snd (get_block request w)) = (calls w ++ [o])%list ->
  engine_raises o w e ->
  fst (get_block request w) =
    if isinstance e [StarkException] then Aborted (message_500 e) else Raised e.
Proof.
  rewrite get_block_eq.
  destruct (MultiDict_get (args request) "blockHash") as [h |];
    destruct (MultiDict_get_type (args request) "blockNumber" custom_int) as [n |];
    intros Hcalls Hraise;
    try raised_read.
  simpl in Hcalls. now apply no_call_made in Hcalls.
Qed.

Lemma get_full_contract_caught (request : Request) (w : world)
    (o : Engine.op InvokeFunction) (e : pyexn) :
  calls (snd (get_full_contract request w)) = (calls w ++ [o])%list ->
  engine_raises o w e ->
  fst (get_full_contract request w) =
    if isinstance e [StarknetDevnetException] then Aborted (message_500 e) else Raised e.
Proof.
  destruct (get_full_contract_eq request w) as [lines Heq]. rewrite Heq.
  intros Hcalls Hraise. raised_read.
Qed.

Lemma get_transaction_trace_caught (request : Request) (w : world)
    (o : Engine.op InvokeFunction) (e : pyexn) :
  calls (snd (get_transaction_trace request w)) = (calls w ++ [o])%list ->
  engine_raises o w e ->
  fst (get_transaction_trace request w) =
    if isinstance e [StarkException] then Aborted (Response (Object e) 500) else Raised e.
Proof.
  rewrite get_transaction_trace_eq.
  intros Hcalls Hraise. raised_read.
Qed.

Lemma get_state_update_caught (request : Request) (w : world)
    (o : Engine.op InvokeFunction) (e : pyexn) :
  calls (snd (get_state_update request w)) = (calls w ++ [o])%list ->
  engine_raises o w e ->
  fst (get_state_update request w) =
    if isinstance e [StarkException] then Aborted (message_500 e) else Raised e.
Proof.
  rewrite get_state_update_eq.
  intros Hcalls Hraise. raised_read.
Qed.

Lemma estimate_fee_caught (request : Request) (w : world)
    (o : Engine.op InvokeFunction) (e : pyexn) :
  calls (snd (estimate_fee request w)) = (calls w ++ [o])%list ->
  engine_raises o w e ->
  fst (estimate_fee request w) =
    if isinstance e [StarkException] then Aborted (message_500 e) else Raised e.
Proof.
  rewrite estimate_fee_eq.
  destruct (validate_transaction (data request)) as [tx | r | err];
    intros Hcalls Hraise;
    try (simpl in Hcalls; now apply no_call_made in Hcalls).
  raised_read.
Qed.

Lemma served_same_engine (o : Engine.op InvokeFunction) (classes : list exn_class)
    (mk : pyexn -> HttpResponse) (enc : Engine.result_type o -> HttpResponse)
    (w1 w2 : world) :
  same_engine w1 w2 ->
  fst (served o classes mk enc w1) = fst (served o classes mk enc w2) /\
  same_engine (snd (served o classes mk enc w1)) (snd (served o classes mk enc w2)).
Proof.
  intros [He Hc]. unfold served, same_engine, after_call. simpl.
  rewrite He, Hc. repeat split.
Qed.

Lemma served_status (o : Engine.op InvokeFunction) (classes : list exn_class)
    (mk : pyexn -> HttpResponse) (enc : Engine.result_type o -> HttpResponse)
    (w : world) (r : HttpResponse) :
  (forall err, status (mk err) = 500) ->
  (forall v, status (enc v) = 200) ->
  produced (fst (served o classes mk enc w)) = Some r ->
  status r = 200 \/ status r = 500.
Proof.
  intros Hmk Henc. unfold served, answer. simpl.
  destruct (fst (starknet_wrapper o (engine w))) as [v | e].
  - intros [= <-]. left. apply Henc.
  - destruct (isinstance e classes); [| discriminate].
    intros [= <-]. right. apply Hmk.
Qed.

(** *** The claims *)

(** C1, as amended: a GET /get_block request whose blockHash parameter is
    present (with any text) and whose blockNumber parameter is present and
    accepted by [custom_int] is answered with the AmbiguousCriteria
    response, status 500 and the fixed message, and the world is unchanged:
    no engine method is called. *)
Theorem get_block_ambiguous_criteria (request : Request) (w : world)
    (block_hash : string) (block_number : Z) :
  MultiDict_get (args request) "blockHash" = Some block_hash ->
  MultiDict_get_type (args request) "blockNumber" custom_int = Some block_number ->
  get_block request w = (Aborted ambiguous_criteria, w).
Proof.
  intros Hh Hn. rewrite get_block_eq, Hh, Hn. reflexivity.
Qed.

(** C2, as amended: a GET /get_block request that passes the ambiguity
    check makes exactly one engine call and prints nothing.  With a block
    hash it is [get_block_by_hash] on the text of the hash; without one it
    is [get_block_by_number] on the parsed block number ([None], the latest
    block, when the number is absent or refused). *)
Theorem get_block_dispatch (request : Request) (w : world) :
  (forall block_hash,
     MultiDict_get (args request) "blockHash" = Some block_hash ->
     MultiDict_get_type (args request) "blockNumber" custom_int = None ->
     get_block request w =
       served (Engine.get_block_by_hash block_hash) [StarkException] message_500
         jsonify w /\
     calls (snd (get_block request w)) =
       (calls w ++ [Engine.get_block_by_hash block_hash])%list /\
     stdout (snd (get_block request w)) = stdout w) /\
  (forall block_number,
     MultiDict_get (args request) "blockHash" = None ->
     MultiDict_get_type (args request) "blockNumber" custom_int = block_number ->
     get_block request w =
       served (Engine.get_block_by_number block_number) [StarkException] message_500
         jsonify w /\
     calls (snd (get_block request w)) =
       (calls w ++ [Engine.get_block_by_number block_number])%list /\
     stdout (snd (get_block request w)) = stdout w).
Proof.
  split.
  - intros block_hash Hh Hn. rewrite get_block_eq, Hh, Hn. repeat split.
  - intros block_number Hh Hn. rewrite get_block_eq, Hh, Hn.
    destruct block_number; repeat split.
Qed.

(** C3, as amended: get_code, get_storage_at, get_transaction_status,
    get_transaction and get_transaction_receipt have no [except] clause, and
    an exception raised by their engine call leaves the handler unchanged.
    call_contract, get_block, get_transaction_trace, get_state_update and
    estimate_fee turn a [StarkException] raised by their engine call into a
    response of status 500, and get_full_contract does so for a
    [StarknetDevnetException]; an exception of another class leaves these
    handlers unchanged too. *)
Theorem engine_failure_handling :
  Forall propagates
    [get_code; get_storage_at; get_transaction_status; get_transaction;
     get_transaction_receipt] /\
  Forall (re_encodes [StarkException])
    [call_contract; get_block; get_transaction_trace; get_state_update;
     estimate_fee] /\
  re_encodes [StarknetDevnetException] get_full_contract.
Proof.
  split; [| split].
  - repeat apply Forall_cons; try apply Forall_nil;
      auto using get_code_propagates, get_storage_at_propagates,
        get_transaction_status_propagates, get_transaction_propagates,
        get_transaction_receipt_propagates.
  - repeat constructor; intros request w o e Hcalls Hraise.
    + apply (caught_re_encoded _ message_500); [reflexivity |].
      now apply call_contract_caught with (o := o).
    + apply (caught_re_encoded _ message_500); [reflexivity |].
      now apply get_block_caught with (o := o).
    + apply (caught_re_encoded _ (fun err => Response (Object err) 500));
        [reflexivity |].
      now apply get_transaction_trace_caught with (o := o).
    + apply (caught_re_encoded _ message_500); [reflexivity |].
      now apply get_state_update_caught with (o := o).
    + apply (caught_re_encoded _ message_500); [reflexivity |].
      now apply estimate_fee_caught with (o := o).
  - intros request w o e Hcalls Hraise.
    apply (caught_re_encoded _ message_500); [reflexivity |].
    now apply get_full_contract_caught with (o := o).
Qed.

(** X11: the handlers that write [err.message].  When the engine call of
    call_contract, get_block, get_state_update or estimate_fee raises a
    [StarkException], the response has status 500 and its body is the
    message of the caught exception. *)
Lemma siblings_pass_message :
  Forall (passes_message [StarkException])
    [call_contract; get_block; get_state_update; estimate_fee].
Proof.
  repeat constructor; intros request w o e Hcalls Hraise Hcaught.
  - rewrite (call_contract_caught request w o e), Hcaught; auto.
  - rewrite (get_block_caught request w o e), Hcaught; auto.
  - rewrite (get_state_update_caught request w o e), Hcaught; auto.
  - rewrite (estimate_fee_caught request w o e), Hcaught; auto.
Qed.

(** C5, as amended: a POST /call_contract request whose body
    [InvokeFunction.loads] refuses with a [TypeError] or a
    [ValidationError] is answered 400 and leaves the world unchanged, so the
    engine is never called; a body refused with an exception of any other
    class is not answered: the exception leaves the handler, and the world
    is unchanged too.  A body the schema accepts makes exactly one engine
    call, [call] on the decoded call, and when that call succeeds the
    response is its result, JSON-encoded and otherwise untouched. *)
Theorem call_contract_validation_and_forwarding (request : Request) (w : world) :
  (forall err,
     InvokeFunction_loads (data request) = inr err ->
     In TypeError (exn_mro err) \/ In ValidationError (exn_mro err) ->
     call_contract request w =
       (Aborted
          (Response (Text ("Invalid Starknet function call: " ++ exn_str err)) 400),
        w)) /\
  (forall err,
     InvokeFunction_loads (data request) = inr err ->
     ~ In TypeError (exn_mro err) ->
     ~ In ValidationError (exn_mro err) ->
     call_contract request w = (Raised err, w)) /\
  (forall call_specifications,
     InvokeFunction_loads (data request) = inl call_specifications ->
     calls (snd (call_contract request w)) =
       (calls w ++ [Engine.call call_specifications])%list /\
     forall result_dict,
       fst (starknet_wrapper (Engine.call call_specifications) (engine w)) =
         inl result_dict ->
       fst (call_contract request w) = Returned (Response (Json result_dict) 200)).
Proof.
  split; [| split].
  - intros err Hloads Hcls.
    assert (Hcaught : isinstance err [TypeError; ValidationError] = true).
    { apply isinstance_spec. destruct Hcls as [Hin | Hin].
      - exists TypeError. split; [now left | exact Hin].
      - exists ValidationError. split; [right; now left | exact Hin]. }
    rewrite call_contract_eq, Hloads, Hcaught. reflexivity.
  - intros err Hloads Htype Hvalidation.
    assert (Hescapes : isinstance err [TypeError; ValidationError] = false).
    { apply not_true_is_false. intros Hcaught.
      apply isinstance_spec in Hcaught. destruct Hcaught as [c [Hc Hin]].
      destruct Hc as [<- | [<- | []]]; contradiction. }
    rewrite call_contract_eq, Hloads, Hescapes. reflexivity.
  - intros spec Hloads. rewrite call_contract_eq, Hloads. split; [reflexivity |].
    intros result_dict Hok. unfold served, answer. cbn [fst]. rewrite Hok.
    reflexivity.
Qed.

(** C6, as amended: when [validate_transaction] aborts with 400 only, every
    response a rule of the blueprint produces, returned or sent by [abort],
    has status 200, 400, 500 or 501, and 501 comes from
    /get_contract_addresses alone; in particular none is a 404. *)
Theorem status_codes (m : http_method) (path : string)
    (view : Request -> handler HttpResponse) (request : Request) (w : world)
    (r : HttpResponse) :
  (forall body r', validate_transaction body = Aborted r' -> status r' = 400) ->
  In (m, path, view) feeder_gateway ->
  produced (fst (view request w)) = Some r ->
  status_allowed path (status r) /\ status r <> 404.
Proof.
  intros Hvt Hin Hr.
  assert (Hs : status_allowed path (status r)); [| split; [exact Hs |]].
  2: { unfold status_allowed in Hs. lia. }
  unfold status_allowed.
  assert (Hread : forall o classes mk enc w0,
            (forall err, status (mk err) = 500) ->
            (forall v, status (enc v) = 200) ->
            produced (fst (served o classes mk enc w0)) = Some r ->
            status r = 200 \/ status r = 400 \/ status r = 500 \/
            (status r = 501 /\ path = "/get_contract_addresses")).
  { intros o classes mk enc w0 Hmk Henc Hp.
    destruct (served_status o classes mk enc w0 r Hmk Henc Hp) as [-> | ->]; auto. }
  simpl in Hin.
  repeat (destruct Hin as [Hin | Hin]; [injection Hin as <- <- <- |]);
    try contradiction.
  - injection Hr as <-. auto.
  - injection Hr as <-. simpl. auto.
  - rewrite call_contract_eq in Hr.
    destruct (InvokeFunction_loads (data request)) as [spec | err].
    + eapply Hread; [| | exact Hr]; reflexivity.
    + destruct (isinstance err _); [| discriminate]. injection Hr as <-. auto.
  - rewrite get_block_eq in Hr.
    destruct (MultiDict_get (args request) "blockHash") as [h |];
      destruct (MultiDict_get_type (args request) "blockNumber" custom_int) as [n |];
      try (eapply Hread; [| | exact Hr]; reflexivity).
    injection Hr as <-. auto.
  - destruct (get_code_eq request w) as [lines Heq]. rewrite Heq in Hr.
    eapply Hread; [| | exact Hr]; reflexivity.
  - destruct (get_full_contract_eq request w) as [lines Heq]. rewrite Heq in Hr.
    eapply Hread; [| | exact Hr]; reflexivity.
  - destruct (get_storage_at_eq request w) as [lines Heq]. rewrite Heq in Hr.
    eapply Hread; [| | exact Hr]; reflexivity.
  - rewrite get_transaction_status_eq in Hr.
    eapply Hread; [| | exact Hr]; reflexivity.
  - rewrite get_transaction_eq in Hr.
    eapply Hread; [| | exact Hr]; reflexivity.
  - rewrite get_transaction_receipt_eq in Hr.
    eapply Hread; [| | exact Hr]; reflexivity.
  - rewrite get_transaction_trace_eq in Hr.
    eapply Hread; [| | exact Hr]; reflexivity.
  - rewrite get_state_update_eq in Hr.
    eapply Hread; [| | exact Hr]; reflexivity.
  - rewrite estimate_fee_eq in Hr.
    destruct (validate_transaction (data request)) as [tx | r' | err] eqn:Hv.
    + eapply Hread; [| | exact Hr]; reflexivity.
    + injection Hr as <-. rewrite (Hvt _ _ Hv). auto.
    + discriminate.
Qed.

(** C7: whenever POST /estimate_fee returns, the response is 200 and its
    body is the JSON object with the key [amount] bound to an integer, the
    fee the engine computed, and the key [unit] bound to the string "wei". *)
Theorem estimate_fee_shape (request : Request) (w w' : world) (r : HttpResponse) :
  estimate_fee request w = (Returned r, w') ->
  exists (transaction : InvokeFunction) (actual_fee : Z),
    fst (starknet_wrapper (Engine.calculate_actual_fee transaction) (engine w)) =
      inl actual_fee /\
    r = Response (Json (JObject [("amount", JInt actual_fee); ("unit", JString "wei")]))
          200.
Proof.
  rewrite estimate_fee_eq.
  destruct (validate_transaction (data request)) as [tx | r' | err]; try discriminate.
  unfold served, answer. cbn [fst].
  destruct (fst (starknet_wrapper (Engine.calculate_actual_fee tx) (engine w)))
    as [fee | e] eqn:Hfee.
  - intros [= <- _]. exists tx, fee. split; [exact Hfee | reflexivity].
  - destruct (isinstance e _); discriminate.
Qed.

(** C8: every GET /get_contract_addresses request answers 501 with the body
    "Not implemented", and no engine method is called: the world, with its
    record of calls, is unchanged. *)
Theorem get_contract_addresses_not_implemented (request : Request) (w : world) :
  get_contract_addresses request w =
    (Returned (Response (Text "Not implemented") 501), w) /\
  calls (snd (get_contract_addresses request w)) = calls w.
Proof. split; reflexivity. Qed.

(** C9: every GET /is_alive request answers 200 with the body "Alive!!!";
    the request is not read, and the engine, the calls made on it and the
    console are left as they were. *)
Theorem is_alive_always_alive (request : Request) (w : world) :
  is_alive request w = (Returned (Response (Text "Alive!!!") 200), w).
Proof. reflexivity. Qed.

(** C10: for get_code, get_full_contract and get_storage_at, two requests
    that agree on every parameter but blockHash, run on worlds with the
    same engine and the same record of calls, end the same way (same
    response or same exception) and leave the same engine and the same
    record of calls. *)
Theorem block_hash_noninterference (r1 r2 : Request) (w1 w2 : world)
    (view : Request -> handler HttpResponse) :
  agree_except_blockHash r1 r2 ->
  same_engine w1 w2 ->
  In view [get_code; get_full_contract; get_storage_at] ->
  fst (view r1 w1) = fst (view r2 w2) /\
  same_engine (snd (view r1 w1)) (snd (view r2 w2)).
Proof.
  intros [_ Hargs] [He Hc] Hin.
  assert (Haddr : MultiDict_get_type (args r1) "contractAddress" custom_int =
                  MultiDict_get_type (args r2) "contractAddress" custom_int).
  { unfold MultiDict_get_type. rewrite Hargs; [reflexivity | discriminate]. }
  assert (Hkey : MultiDict_get_type (args r1) "key" custom_int =
                 MultiDict_get_type (args r2) "key" custom_int).
  { unfold MultiDict_get_type. rewrite Hargs; [reflexivity | discriminate]. }
  assert (Hw : forall l1 l2, same_engine (noted l1 w1) (noted l2 w2)).
  { intros l1 l2. split; assumption. }
  simpl in Hin. destruct Hin as [<- | [<- | [<- | []]]].
  - destruct (get_code_eq r1 w1) as [l1 ->]. destruct (get_code_eq r2 w2) as [l2 ->].
    rewrite Haddr. apply served_same_engine, Hw.
  - destruct (get_full_contract_eq r1 w1) as [l1 ->].
    destruct (get_full_contract_eq r2 w2) as [l2 ->].
    rewrite Haddr. apply served_same_engine, Hw.
  - destruct (get_storage_at_eq r1 w1) as [l1 ->].
    destruct (get_storage_at_eq r2 w2) as [l2 ->].
    rewrite Haddr, Hkey. apply served_same_engine, Hw.
Qed.

(** *** Further properties of the view functions *)

Lemma check_block_hash_lines (request_args : MultiDict) (w : world) :
  _check_block_hash request_args w = (Returned tt, noted (notice_lines request_args) w).
Proof.
  unfold _check_block_hash, notice_lines.
  destruct (MultiDict_get_type request_args "blockHash" custom_int).
  - reflexivity.
  - rewrite noted_nil. reflexivity.
Qed.

Lemma get_code_run (request : Request) (w : world) :
  get_code request w =
  served
    (Engine.get_code (MultiDict_get_type (args request) "contractAddress" custom_int))
    [] message_500 jsonify (noted (notice_lines (args request)) w).
Proof.
  unfold get_code, bind at 1. rewrite check_block_hash_lines. run_read.
Qed.

Lemma get_full_contract_run (request : Request) (w : world) :
  get_full_contract request w =
  served
    (Engine.get_full_contract
       (MultiDict_get_type (args request) "contractAddress" custom_int))
    [StarknetDevnetException] message_500 jsonify
    (noted (notice_lines (args request)) w).
Proof.
  unfold get_full_contract, bind at 1. rewrite check_block_hash_lines. run_read.
Qed.

Lemma get_storage_at_run (request : Request) (w : world) :
  get_storage_at request w =
  served
    (Engine.get_storage_at
       (MultiDict_get_type (args request) "contractAddress" custom_int)
       (MultiDict_get_type (args request) "key" custom_int))
    [] message_500 jsonify (noted (notice_lines (args request)) w).
Proof.
  unfold get_storage_at, bind at 1. rewrite check_block_hash_lines. run_read.
Qed.

(** The world every rule of the blueprint leaves behind. *)
Lemma handler_world (m : http_method) (path : string)
    (view : Request -> handler HttpResponse) (request : Request) (w : world) :
  In (m, path, view) feeder_gateway ->
  one_call_at_most (printed path request) w (snd (view request w)).
Proof.
  intros Hin. simpl in Hin.
  assert (Hquiet : forall w0 : world, w0 = w -> one_call_at_most [] w w0).
  { intros w0 ->. left. now rewrite noted_nil. }
  assert (Hread : forall o classes mk enc lines,
            one_call_at_most lines w (snd (served o classes mk enc (noted lines w)))).
  { intros o classes mk enc lines. right. exists o. reflexivity. }
  assert (Hread0 : forall o classes mk enc,
            one_call_at_most [] w (snd (served o classes mk enc w))).
  { intros o classes mk enc. right. exists o. now rewrite noted_nil. }
  repeat (destruct Hin as [Hin | Hin]; [injection Hin as <- <- <- |]);
    try contradiction;
    change (printed _ request) with (@nil string) ||
    change (printed _ request) with (notice_lines (args request)).
  - now apply Hquiet.
  - now apply Hquiet.
  - rewrite call_contract_eq.
    destruct (InvokeFunction_loads (data request)) as [spec | err];
      [apply Hread0 |].
    destruct (isinstance err _); now apply Hquiet.
  - rewrite get_block_eq.
    destruct (MultiDict_get (args request) "blockHash") as [h |];
      destruct (MultiDict_get_type (args request) "blockNumber" custom_int) as [n |];
      try apply Hread0.
    now apply Hquiet.
  - rewrite get_code_run. apply Hread.
  - rewrite get_full_contract_run. apply Hread.
  - rewrite get_storage_at_run. apply Hread.
  - rewrite get_transaction_status_eq. apply Hread0.
  - rewrite get_transaction_eq. apply Hread0.
  - rewrite get_transaction_receipt_eq. apply Hread0.
  - rewrite get_transaction_trace_eq. apply Hread0.
  - rewrite get_state_update_eq. apply Hread0.
  - rewrite estimate_fee_eq.
    destruct (validate_transaction (data request)) as [tx | r | err];
      [apply Hread0 | now apply Hquiet | now apply Hquiet].
Qed.

(** X1: when [InvokeFunction.loads] raises an exception that is neither a
    [TypeError] nor a [ValidationError], POST /call_contract does not
    answer 400: the exception leaves the handler as it is, and the world is
    unchanged, so the engine is not called. *)
Theorem call_contract_unexpected_load_error (request : Request) (w : world)
    (err : pyexn) :
  InvokeFunction_loads (data request) = inr err ->
  isinstance err [TypeError; ValidationError] = false ->
  call_contract request w = (Raised err, w).
Proof.
  intros Hloads Hcls. rewrite call_contract_eq, Hloads, Hcls. reflexivity.
Qed.

(** X2: every rule of the blueprint makes at most one engine call.  Either
    the record of calls and the engine are as before, or exactly one call
    was appended to the record and the engine is the one that call left. *)
Theorem one_engine_call_at_most (m : http_method) (path : string)
    (view : Request -> handler HttpResponse) (request : Request) (w : world) :
  In (m, path, view) feeder_gateway ->
  (calls (snd (view request w)) = calls w /\
   engine (snd (view request w)) = engine w) \/
  (exists o,
     calls (snd (view request w)) = (calls w ++ [o])%list /\
     engine (snd (view request w)) = snd (starknet_wrapper o (engine w))).
Proof.
  intros Hin.
  destruct (handler_world m path view request w Hin) as [-> | [o ->]].
  - left. split; reflexivity.
  - right. exists o. split; reflexivity.
Qed.

(** X3: what the rules print.  /get_code, /get_full_contract and
    /get_storage_at append the block-hash notice to the console when the
    blockHash parameter is present and accepted by [custom_int], and
    nothing otherwise; every other rule leaves the console as it was. *)
Theorem console_output (m : http_method) (path : string)
    (view : Request -> handler HttpResponse) (request : Request) (w : world) :
  In (m, path, view) feeder_gateway ->
  stdout (snd (view request w)) =
    (stdout w ++
       (if checks_block_hash path
        then match MultiDict_get_type (args request) "blockHash" custom_int with
             | Some _ => [block_hash_notice]
             | None => []
             end
        else []))%list.
Proof.
  intros Hin.
  destruct (handler_world m path view request w Hin) as [-> | [o ->]];
    reflexivity.
Qed.

Lemma served_returns (o o' : Engine.op InvokeFunction) (classes : list exn_class)
    (mk : pyexn -> HttpResponse) (enc : Engine.result_type o -> HttpResponse)
    (w w0 : world) (v : Engine.result_type o') :
  (forall x, enc x = encode o x) ->
  same_engine w w0 ->
  calls (snd (served o classes mk enc w)) = (calls w0 ++ [o'])%list ->
  fst (starknet_wrapper o' (engine w0)) = inl v ->
  fst (served o classes mk enc w) = Returned (encode o' v).
Proof.
  intros Henc [He Hc] Hcalls. unfold served in *. simpl in Hcalls.
  rewrite Hc in Hcalls. apply app_inv_head in Hcalls.
  injection Hcalls as <-.
  intros Hok. unfold answer. cbn [fst]. rewrite He, Hok, Henc. reflexivity.
Qed.

(** Closes a goal about the outcome of a read that answered. *)
Ltac answered_read :=
  eapply served_returns; [reflexivity | eauto with gateway ..].

(** X4: every view function that calls the engine answers 200 with what the
    call answered, JSON-encoded and otherwise unchanged; estimate_fee alone
    wraps the answer, in the fee object. *)
Theorem engine_results_unmodified :
  Forall returns_result
    [call_contract; get_block; get_code; get_full_contract; get_storage_at;
     get_transaction_status; get_transaction; get_transaction_receipt;
     get_transaction_trace; get_state_update; estimate_fee].
Proof.
  repeat apply Forall_cons; try apply Forall_nil;
    intros request w o v Hcalls Hok.
  - rewrite call_contract_eq in *.
    destruct (InvokeFunction_loads (data request)) as [spec | err].
    + answered_read.
    + destruct (isinstance err _); simpl in Hcalls;
        now apply no_call_made in Hcalls.
  - rewrite get_block_eq in *.
    destruct (MultiDict_get (args request) "blockHash") as [h |];
      destruct (MultiDict_get_type (args request) "blockNumber" custom_int) as [n |];
      try answered_read.
    simpl in Hcalls. now apply no_call_made in Hcalls.
  - rewrite get_code_run in *. answered_read.
  - rewrite get_full_contract_run in *. answered_read.
  - rewrite get_storage_at_run in *. answered_read.
  - rewrite get_transaction_status_eq in *. answered_read.
  - rewrite get_transaction_eq in *. answered_read.
  - rewrite get_transaction_receipt_eq in *. answered_read.
  - rewrite get_transaction_trace_eq in *. answered_read.
  - rewrite get_state_update_eq in *. answered_read.
  - rewrite estimate_fee_eq in *.
    destruct (validate_transaction (data request)) as [tx | r | err];
      try (simpl in Hcalls; now apply no_call_made in Hcalls).
    answered_read.
Qed.

(** X5: GET /get_full_contract answers a [StarknetDevnetException] of the
    engine with status 500 and the exception's message as body; any other
    exception, a [StarkException] that is no [StarknetDevnetException]
    included, leaves the handler as it is. *)
Theorem get_full_contract_uninitialized (request : Request) (w : world) (e : pyexn) :
  engine_raises
    (Engine.get_full_contract
       (MultiDict_get_type (args request) "contractAddress" custom_int)) w e ->
  fst (get_full_contract request w) =
    if isinstance e [StarknetDevnetException]
    then Aborted (Response (Text (exn_message e)) 500)
    else Raised e.
Proof.
  intros Hraise. rewrite get_full_contract_run.
  unfold served, answer, engine_raises in *. cbn [fst noted engine].
  rewrite Hraise. reflexivity.
Qed.

(** X6: POST /estimate_fee reaches the engine only through a transaction
    [validate_transaction] returned.  When the validation aborts or raises,
    the handler ends the same way with the world unchanged; otherwise it
    makes exactly one call, [calculate_actual_fee] on that transaction, and
    prints nothing. *)
Theorem estimate_fee_validation_gate (request : Request) (w : world) :
  (forall r, validate_transaction (data request) = Aborted r ->
             estimate_fee request w = (Aborted r, w)) /\
  (forall e, validate_transaction (data request) = Raised e ->
             estimate_fee request w = (Raised e, w)) /\
  (forall transaction,
     validate_transaction (data request) = Returned transaction ->
     calls (snd (estimate_fee request w)) =
       (calls w ++ [Engine.calculate_actual_fee transaction])%list /\
     stdout (snd (estimate_fee request w)) = stdout w).
Proof.
  split; [| split].
  - intros r Hv. rewrite estimate_fee_eq, Hv. reflexivity.
  - intros e Hv. rewrite estimate_fee_eq, Hv. reflexivity.
  - intros transaction Hv. rewrite estimate_fee_eq, Hv. split; reflexivity.
Qed.


Lemma MultiDict_get_app (d extra : MultiDict) (key : string) :
  MultiDict_get (d ++ extra)%list key =
  match MultiDict_get d key with
  | Some v => Some v
  | None => MultiDict_get extra key
  end.
Proof.
  induction d as [| [k v] d IH]; simpl; [reflexivity |].
  destruct (String.eqb k key); [reflexivity | exact IH].
Qed.

Lemma MultiDict_get_In (d : MultiDict) (key value : string) :
  MultiDict_get d key = Some value -> In (key, value) d.
Proof.
  induction d as [| [k v] d IH]; simpl; [discriminate |].
  destruct (String.eqb_spec k key) as [-> | _].
  - intros [= ->]. now left.
  - intros Hget. right. now apply IH.
Qed.

(** The view functions read a request through [get] and its body only. *)
Lemma view_same_query (m : http_method) (path : string)
    (view : Request -> handler HttpResponse) (r1 r2 : Request) (w : world) :
  In (m, path, view) feeder_gateway ->
  same_query r1 r2 ->
  view r1 w = view r2 w.
Proof.
  intros Hin [Hdata Hargs]. simpl in Hin.
  repeat (destruct Hin as [Hin | Hin]; [injection Hin as <- <- <- |]);
    try contradiction;
    unfold is_alive, get_contract_addresses, call_contract, get_block, get_code,
      get_full_contract, get_storage_at, get_transaction_status, get_transaction,
      get_transaction_receipt, get_transaction_trace, get_state_update,
      estimate_fee, _check_block_hash, MultiDict_get_type;
    rewrite ?Hdata; repeat rewrite Hargs; reflexivity.
Qed.

(** X8: the first value of a query parameter wins.  Parameters appended to
    the query string under names it already holds change nothing, for any
    rule of the blueprint: the outcome and the world are the same. *)
Theorem first_value_wins (m : http_method) (path : string)
    (view : Request -> handler HttpResponse) (request : Request)
    (extra : MultiDict) (w : world) :
  In (m, path, view) feeder_gateway ->
  (forall key value, In (key, value) extra -> MultiDict_get (args request) key <> None) ->
  view (mk_request (args request ++ extra)%list (data request)) w = view request w.
Proof.
  intros Hin Hextra. apply (view_same_query m path); [exact Hin |].
  split; [reflexivity |].
  intros key. cbn [args]. rewrite MultiDict_get_app.
  destruct (MultiDict_get (args request) key) as [v |] eqn:Hget; [reflexivity |].
  destruct (MultiDict_get extra key) as [v |] eqn:Hextra_get; [| reflexivity].
  apply MultiDict_get_In, Hextra in Hextra_get. contradiction.
Qed.

(** X9: GET /get_state_update has no ambiguity check.  With a block hash
    and an accepted block number both supplied, it makes one engine call,
    [get_state_update] on the text of the hash and the number, and answers
    with what that call gives: the result with status 200, or status 500
    with the message of a [StarkException]. *)
Theorem get_state_update_forwards_both (request : Request) (w : world)
    (block_hash : string) (block_number : Z) :
  MultiDict_get (args request) "blockHash" = Some block_hash ->
  MultiDict_get_type (args request) "blockNumber" custom_int = Some block_number ->
  calls (snd (get_state_update request w)) =
    (calls w ++ [Engine.get_state_update (Some block_hash) (Some block_number)])%list /\
  fst (get_state_update request w) =
    match fst (starknet_wrapper
                 (Engine.get_state_update (Some block_hash) (Some block_number))
                 (engine w)) with
    | inl state_update => Returned (Response (Json state_update) 200)
    | inr err =>
        if isinstance err [StarkException]
        then Aborted (Response (Text (exn_message err)) 500)
        else Raised err
    end.
Proof.
  intros Hh Hn. rewrite get_state_update_eq, Hh, Hn. split; reflexivity.
Qed.

(** X10: get_code, get_full_contract and get_storage_at see contractAddress
    and key only through [custom_int].  Two requests whose contractAddress
    and key parameters convert to the same values (or are both absent or
    refused), run on worlds with the same engine and record of calls, end
    the same way and leave the same engine and record of calls. *)
Theorem converted_parameters_decide (r1 r2 : Request) (w1 w2 : world)
    (view : Request -> handler HttpResponse) :
  MultiDict_get_type (args r1) "contractAddress" custom_int =
    MultiDict_get_type (args r2) "contractAddress" custom_int ->
  MultiDict_get_type (args r1) "key" custom_int =
    MultiDict_get_type (args r2) "key" custom_int ->
  same_engine w1 w2 ->
  In view [get_code; get_full_contract; get_storage_at] ->
  fst (view r1 w1) = fst (view r2 w2) /\
  same_engine (snd (view r1 w1)) (snd (view r2 w2)).
Proof.
  intros Haddr Hkey [He Hc] Hin.
  assert (Hw : forall l1 l2, same_engine (noted l1 w1) (noted l2 w2)).
  { intros l1 l2. split; assumption. }
  simpl in Hin. destruct Hin as [<- | [<- | [<- | []]]].
  - rewrite !get_code_run, Haddr. apply served_same_engine, Hw.
  - rewrite !get_full_contract_run, Haddr. apply served_same_engine, Hw.
  - rewrite !get_storage_at_run, Haddr, Hkey. apply served_same_engine, Hw.
Qed.

(** X12: get_transaction_status, get_transaction, get_transaction_receipt
    and get_transaction_trace each make exactly one engine call, the method
    of the same name, and hand it the transaction hash as the text of the
    query parameter, unconverted ([None] when the parameter is absent). *)
Theorem transaction_hash_passed_as_text :
  passes_text Engine.get_transaction_status get_transaction_status /\
  passes_text Engine.get_transaction get_transaction /\
  passes_text Engine.get_transaction_receipt get_transaction_receipt /\
  passes_text Engine.get_transaction_trace get_transaction_trace.
Proof.
  repeat split; intros request w.
  - rewrite get_transaction_status_eq. reflexivity.
  - rewrite get_transaction_eq. reflexivity.
  - rewrite get_transaction_receipt_eq. reflexivity.
  - rewrite get_transaction_trace_eq. reflexivity.
Qed.

End Properties.

(** ** The handlers run on the concrete collaborators *)

Example parse_integer_param_examples :
  parse_integer_param "0x1a" = Some 26 /\ parse_integer_param "26" = Some 26 /\
  parse_integer_param "1a" = None /\ parse_integer_param "" = None.
Proof. repeat split; reflexivity. Qed.

Example demo_get_block_by_hash :
  @get_block demo (GET_request [("blockHash", "0x1")]) (fresh demo 3) =
  (Returned (jsonify (JObject [("block_hash", JString "0x1")])),
   @mk_world demo 3 [Engine.get_block_by_hash "0x1"] []).
Proof. reflexivity. Qed.

Example demo_call_contract_refused :
  @call_contract demo (POST_request "{}") (fresh demo 3) =
  (Aborted
     (Response
        (Text "Invalid Starknet function call: contract_address: Missing data for required field.")
        400),
   fresh demo 3).
Proof. reflexivity. Qed.

Example demo_call_contract_forwarded :
  @call_contract demo (POST_request "0x10") (fresh demo 3) =
  (Returned (Response (Json (JObject [("result", JArray [JString "0x0"])])) 200),
   @mk_world demo 3 [Engine.call 16] []).
Proof. reflexivity. Qed.

Example demo_get_code_notice :
  @get_code demo (GET_request [("blockHash", "0x5"); ("contractAddress", "7")])
    (fresh demo 3) =
  (Returned (jsonify (JObject [("abi", JObject []); ("bytecode", JArray [])])),
   @mk_world demo 3 [Engine.get_code (Some 7)]
     ["Specifying a block by its hash is not supported. All interaction is done with the latest block."]).
Proof. reflexivity. Qed.

Example failing_get_state_update_message :
  @get_state_update failing (GET_request []) (fresh failing tt) =
  (Aborted (Response (Text "boom") 500),
   @mk_world failing tt [Engine.get_state_update None None] []).
Proof. reflexivity. Qed.

(** C1, the claim as stated fails twice.  A GET /get_block request that
    supplies a block hash and a block number [custom_int] refuses is served
    by hash; and GET /get_state_update, which has no ambiguity check, hands
    both values to the engine and answers 200. *)
Lemma ambiguous_criteria_not_for_every_request :
  (MultiDict_get [("blockHash", "0x1"); ("blockNumber", "1a")] "blockHash" = Some "0x1" /\
   MultiDict_get [("blockHash", "0x1"); ("blockNumber", "1a")] "blockNumber" = Some "1a" /\
   @get_block demo (GET_request [("blockHash", "0x1"); ("blockNumber", "1a")])
     (fresh demo 3) =
   (Returned (Response (Json (JObject [("block_hash", JString "0x1")])) 200),
    @mk_world demo 3 [Engine.get_block_by_hash "0x1"] [])) /\
  (MultiDict_get [("blockHash", "0x1"); ("blockNumber", "1")] "blockHash" = Some "0x1" /\
   MultiDict_get [("blockHash", "0x1"); ("blockNumber", "1")] "blockNumber" = Some "1" /\
   @get_state_update demo (GET_request [("blockHash", "0x1"); ("blockNumber", "1")])
     (fresh demo 3) =
   (Returned
      (Response
         (Json (JObject [("block_hash", JString "0x1"); ("block_number", JInt 1)])) 200),
    @mk_world demo 3 [Engine.get_state_update (Some "0x1") (Some 1)] [])).
Proof. repeat split. Qed.

(** C1, the amended statement at a request with both parameters valid. *)
Lemma get_block_ambiguous_criteria_witness :
  @get_block demo (GET_request [("blockHash", "0x1"); ("blockNumber", "1")])
    (fresh demo 3) =
  (Aborted
     (Response
        (Text "Ambiguous criteria: only one of (block number, block hash) can be provided.")
        500),
   fresh demo 3).
Proof.
  apply (@get_block_ambiguous_criteria demo _ _ "0x1" 1); reflexivity.
Defined.

(** C2, the claim as stated fails: a GET /get_block request with a block
    hash alone calls [get_block_by_hash] on the engine, answers with the
    block the engine found for that hash, and prints no notice. *)
Lemma get_block_fetches_by_hash :
  @get_block demo (GET_request [("blockHash", "0x1")]) (fresh demo 3) =
  (Returned (Response (Json (JObject [("block_hash", JString "0x1")])) 200),
   @mk_world demo 3 [Engine.get_block_by_hash "0x1"] []) /\
  stdout (snd (@get_block demo (GET_request [("blockHash", "0x1")]) (fresh demo 3))) = [] /\
  In (Engine.get_block_by_hash "0x1")
    (calls (snd (@get_block demo (GET_request [("blockHash", "0x1")]) (fresh demo 3)))).
Proof. repeat split. left. reflexivity. Qed.

(** C3, the claim as stated fails: on an engine that raises, each of the
    five handlers the claim names lets the exception out; no response is
    produced. *)
Lemma engine_failure_escapes_unguarded_handlers :
  @get_code failing (GET_request [("contractAddress", "1")]) (fresh failing tt) =
    (Raised (stark_exception "boom"),
     @mk_world failing tt [Engine.get_code (Some 1)] []) /\
  @get_storage_at failing (GET_request [("contractAddress", "1"); ("key", "2")])
    (fresh failing tt) =
    (Raised (stark_exception "boom"),
     @mk_world failing tt [Engine.get_storage_at (Some 1) (Some 2)] []) /\
  @get_transaction_status failing (GET_request [("transactionHash", "0x1")])
    (fresh failing tt) =
    (Raised (stark_exception "boom"),
     @mk_world failing tt [Engine.get_transaction_status (Some "0x1")] []) /\
  @get_transaction failing (GET_request [("transactionHash", "0x1")])
    (fresh failing tt) =
    (Raised (stark_exception "boom"),
     @mk_world failing tt [Engine.get_transaction (Some "0x1")] []) /\
  @get_transaction_receipt failing (GET_request [("transactionHash", "0x1")])
    (fresh failing tt) =
    (Raised (stark_exception "boom"),
     @mk_world failing tt [Engine.get_transaction_receipt (Some "0x1")] []) /\
  produced
    (fst (@get_code failing (GET_request [("contractAddress", "1")]) (fresh failing tt))) =
    None.
Proof. repeat split. Qed.

(** C4, at the failing input: when the engine raises a [StarkException]
    for GET /get_transaction_trace, the handler gives [Response] the
    exception object, not its message, so the body is not the message
    text; get_state_update, on the same engine, does write the message. *)
Theorem get_transaction_trace_body_is_the_exception_object :
  @get_transaction_trace failing (GET_request [("transactionHash", "0x1")])
    (fresh failing tt) =
    (Aborted (Response (Object (stark_exception "boom")) 500),
     @mk_world failing tt [Engine.get_transaction_trace (Some "0x1")] []) /\
  Response (Object (stark_exception "boom")) 500 <>
    Response (Text (exn_message (stark_exception "boom"))) 500 /\
  fst (@get_state_update failing (GET_request [("blockHash", "0x1")]) (fresh failing tt)) =
    Aborted (Response (Text (exn_message (stark_exception "boom"))) 500).
Proof. repeat split. discriminate. Qed.

(** C5, the claim as stated fails: a body the schema refuses is not always
    answered 400.  An address out of range is refused with a
    [StarkException], and a body that is no JSON document with a decoding
    error; [validate_call] catches neither, so the exception leaves the
    handler and no response is produced. *)
Lemma refused_body_without_400 :
  (@InvokeFunction_loads ranged
     "0xffffffffffffffffffffffffffffffffffffffffffffffffffffffffffffffff" =
     inr (stark_exception "Contract address is out of range.") /\
   @call_contract ranged
     (POST_request "0xffffffffffffffffffffffffffffffffffffffffffffffffffffffffffffffff")
     (fresh ranged 3) =
     (Raised (stark_exception "Contract address is out of range."), fresh ranged 3) /\
   produced
     (fst (@call_contract ranged
             (POST_request
                "0xffffffffffffffffffffffffffffffffffffffffffffffffffffffffffffffff")
             (fresh ranged 3))) = None) /\
  (@InvokeFunction_loads strict "" = inr json_decode_error /\
   @call_contract strict (POST_request "") (fresh strict tt) =
     (Raised json_decode_error, fresh strict tt) /\
   produced (fst (@call_contract strict (POST_request "") (fresh strict tt))) = None).
Proof. repeat split; vm_compute; reflexivity. Qed.

(** C6, the claim as stated fails: /get_contract_addresses is a rule of the
    blueprint and its response has status 501, which is none of 200, 400
    and 500. *)
Lemma status_501_is_produced :
  In (GET, "/get_contract_addresses", @get_contract_addresses demo)
    (@feeder_gateway demo) /\
  exists r,
    produced (fst (@get_contract_addresses demo (GET_request []) (fresh demo 3))) =
      Some r /\
    status r = 501 /\ status r <> 200 /\ status r <> 400 /\ status r <> 500.
Proof.
  split.
  - simpl. auto.
  - eexists. split; [reflexivity |]. simpl. repeat split; discriminate.
Qed.

Lemma demo_validate_transaction_400 (body : string) (r : HttpResponse) :
  demo_validate_transaction body = Aborted r -> status r = 400.
Proof.
  unfold demo_validate_transaction.
  destruct (demo_loads body); [discriminate |].
  intros [= <-]. reflexivity.
Qed.

(** C6, the amended statement at a fee estimate with a refused body. *)
Lemma status_codes_witness :
  status_allowed "/estimate_fee" 400 /\ 400 <> 404.
Proof.
  apply (@status_codes demo POST "/estimate_fee" (@estimate_fee demo)
           (POST_request "{}") (fresh demo 3)
           (Response
              (Text "Invalid tx: contract_address: Missing data for required field.")
              400)).
  - exact demo_validate_transaction_400.
  - simpl. repeat (try (left; reflexivity); right).
  - reflexivity.
Defined.

(** C7 at a fee estimate the engine answers with 0. *)
Lemma estimate_fee_shape_witness :
  exists (transaction : Z) (actual_fee : Z),
    fst (demo_engine (Engine.calculate_actual_fee transaction) 3) = inl actual_fee /\
    jsonify (fee_object 0) =
      Response (Json (JObject [("amount", JInt actual_fee); ("unit", JString "wei")])) 200.
Proof.
  apply (@estimate_fee_shape demo (POST_request "0x10") (fresh demo 3)
           (@mk_world demo 3 [Engine.calculate_actual_fee 16] [])
           (jsonify (fee_object 0))).
  reflexivity.
Defined.

(** C10 at two storage reads, one of them with a blockHash parameter. *)
Lemma block_hash_noninterference_witness :
  fst (@get_storage_at demo
         (GET_request [("contractAddress", "0x1"); ("key", "2")]) (fresh demo 3)) =
  fst (@get_storage_at demo
         (GET_request [("blockHash", "0x5"); ("contractAddress", "0x1"); ("key", "2")])
         (fresh demo 3)) /\
  same_engine
    (snd (@get_storage_at demo
            (GET_request [("contractAddress", "0x1"); ("key", "2")]) (fresh demo 3)))
    (snd (@get_storage_at demo
            (GET_request [("blockHash", "0x5"); ("contractAddress", "0x1"); ("key", "2")])
            (fresh demo 3))).
Proof.
  apply (@block_hash_noninterference demo).
  - split; [reflexivity |].
    intros key Hkey. cbn [GET_request args MultiDict_get].
    destruct (String.eqb_spec "blockHash" key) as [Heq | _]; [| reflexivity].
    now subst key.
  - split; reflexivity.
  - simpl. auto.
Defined.

(** ** The further properties on the concrete collaborators *)

(** X1 at an empty body, which the schema cannot decode. *)
Lemma call_contract_unexpected_load_error_witness :
  @call_contract strict (POST_request "") (fresh strict tt) =
  (Raised json_decode_error, fresh strict tt).
Proof.
  apply (@call_contract_unexpected_load_error strict); reflexivity.
Defined.

(** X2 at a block read by number. *)
Lemma one_engine_call_at_most_witness :
  (calls (snd (@get_block demo (GET_request [("blockNumber", "1")]) (fresh demo 3))) = [] /\
   engine (snd (@get_block demo (GET_request [("blockNumber", "1")]) (fresh demo 3))) = 3) \/
  (exists o,
     calls (snd (@get_block demo (GET_request [("blockNumber", "1")]) (fresh demo 3))) =
       [o] /\
     engine (snd (@get_block demo (GET_request [("blockNumber", "1")]) (fresh demo 3))) =
       snd (demo_engine o 3)).
Proof.
  apply (@one_engine_call_at_most demo GET "/get_block" (@get_block demo)).
  simpl. repeat (try (left; reflexivity); right).
Defined.

(** X3 at a code read with a block hash. *)
Lemma console_output_witness :
  stdout
    (snd (@get_code demo (GET_request [("blockHash", "0x5"); ("contractAddress", "7")])
            (fresh demo 3))) =
  [block_hash_notice].
Proof.
  apply (@console_output demo GET "/get_code" (@get_code demo)).
  simpl. repeat (try (left; reflexivity); right).
Defined.

(** X5 on the engine that knows no contract. *)
Lemma get_full_contract_uninitialized_witness :
  fst (@get_full_contract strict (GET_request [("contractAddress", "0x1")])
         (fresh strict tt)) =
  Aborted (Response (Text "Contract with the given address is not deployed.") 500).
Proof.
  apply (@get_full_contract_uninitialized strict
           (GET_request [("contractAddress", "0x1")]) (fresh strict tt)
           (devnet_exception "Contract with the given address is not deployed.")).
  reflexivity.
Defined.


(** X8 at a storage read with the key given twice. *)
Lemma first_value_wins_witness :
  @get_storage_at demo
    (mk_request ([("contractAddress", "0x1"); ("key", "2")] ++ [("key", "3")])%list "")
    (fresh demo 3) =
  @get_storage_at demo (GET_request [("contractAddress", "0x1"); ("key", "2")])
    (fresh demo 3).
Proof.
  apply (@first_value_wins demo GET "/get_storage_at" (@get_storage_at demo)
           (GET_request [("contractAddress", "0x1"); ("key", "2")]) [("key", "3")]).
  - simpl. repeat (try (left; reflexivity); right).
  - intros key value [[= <- <-] | []]. discriminate.
Defined.

(** X9 at a request with both parameters valid. *)
Lemma get_state_update_forwards_both_witness :
  calls
    (snd (@get_state_update demo
            (GET_request [("blockHash", "0x1"); ("blockNumber", "1")]) (fresh demo 3))) =
    [Engine.get_state_update (Some "0x1") (Some 1)] /\
  fst (@get_state_update demo
         (GET_request [("blockHash", "0x1"); ("blockNumber", "1")]) (fresh demo 3)) =
    Returned
      (Response
         (Json (JObject [("block_hash", JString "0x1"); ("block_number", JInt 1)])) 200).
Proof.
  apply (@get_state_update_forwards_both demo
           (GET_request [("blockHash", "0x1"); ("blockNumber", "1")]) (fresh demo 3)
           "0x1" 1); reflexivity.
Defined.

(** X10 at one address written in hexadecimal and in decimal. *)
Lemma converted_parameters_decide_witness :
  fst (@get_code demo (GET_request [("contractAddress", "0x1a")]) (fresh demo 3)) =
  fst (@get_code demo (GET_request [("contractAddress", "26")]) (fresh demo 3)) /\
  same_engine
    (snd (@get_code demo (GET_request [("contractAddress", "0x1a")]) (fresh demo 3)))
    (snd (@get_code demo (GET_request [("contractAddress", "26")]) (fresh demo 3))).
Proof.
  apply (@converted_parameters_decide demo); try reflexivity.
  - split; reflexivity.
  - simpl. auto.
Defined.

Example transaction_hash_text_is_not_converted :
  calls
    (snd (@get_transaction demo (GET_request [("transactionHash", "0x1")])
            (fresh demo 3))) <>
  calls
    (snd (@get_transaction demo (GET_request [("transactionHash", "1")])
            (fresh demo 3))).
Proof. discriminate. Qed.

Example failing_get_full_contract_plain_stark_exception :
  fst (@get_full_contract failing (GET_request [("contractAddress", "0x1")])
         (fresh failing tt)) =
  Raised (stark_exception "boom").
Proof. reflexivity. Qed.
